(** * goog.i18n.TimeZone: time-zone resolution and formatting

    A shallow embedding of [goog.i18n.TimeZone] (the time-zone engine shipped
    with the WeScheme editor) and the proofs of its specification.

    - JavaScript numbers that hold minute counts and epoch hours are integers
      ([Z]); the result of arithmetic on [undefined] is [NaN].
    - Arrays are lists; a read out of range yields [undefined] ([None]).
    - A [Date] is its time value, milliseconds since the epoch, UTC. *)

From Stdlib Require Import ZArith QArith Bool String Ascii List Sorted Lia.
From Stdlib Require Import DecimalString.
Import ListNotations.

Local Open Scope Z_scope.

(** ** JavaScript numbers and strings *)

Module JS.

(** The numbers the time-zone code computes with: integers, and [NaN] once
    [undefined] has entered an arithmetic expression. *)
Inductive number : Type :=
| Int (z : Z)
| NaN.

(** [ToNumber] of an array element: [undefined] becomes [NaN]. *)
Definition toNumber (v : option Z) : number :=
  match v with
  | Some z => Int z
  | None => NaN
  end.

(** Unary minus. *)
Definition neg (x : number) : number :=
  match x with
  | Int z => Int (- z)
  | NaN => NaN
  end.

(** [x - y]. *)
Definition sub (x y : number) : number :=
  match x, y with
  | Int a, Int b => Int (a - b)
  | _, _ => NaN
  end.

(** [Math.abs(x)]. *)
Definition abs (x : number) : number :=
  match x with
  | Int z => Int (Z.abs z)
  | NaN => NaN
  end.

(** [Math.floor(x / d)] for a positive integer literal [d]. *)
Definition floorDiv (x : number) (d : Z) : number :=
  match x with
  | Int z => Int (z / d)
  | NaN => NaN
  end.

(** [x % d]: the remainder takes the sign of the dividend. *)
Definition rem (x : number) (d : Z) : number :=
  match x with
  | Int z => Int (Z.rem z d)
  | NaN => NaN
  end.

(** Comparisons; every comparison with [NaN] is false. *)
Definition lt (x y : number) : bool :=
  match x, y with
  | Int a, Int b => a <? b
  | _, _ => false
  end.

Definition le (x y : number) : bool :=
  match x, y with
  | Int a, Int b => a <=? b
  | _, _ => false
  end.

Definition gt (x y : number) : bool := lt y x.

(** [x == y] on numbers; [x != y] is its negation, so [NaN != 0] holds. *)
Definition eq (x y : number) : bool :=
  match x, y with
  | Int a, Int b => a =? b
  | _, _ => false
  end.

Definition neq (x y : number) : bool := negb (eq x y).

(** [String(x)], also the conversion [Array.prototype.join] applies. *)
Definition toString (x : number) : string :=
  match x with
  | Int z => NilZero.string_of_int (Z.to_int z)
  | NaN => "NaN"
  end.

(** [parts.join('')]. *)
Definition join (parts : list string) : string := String.concat "" parts.

(** [goog.string.repeat('0', n)]. *)
Fixpoint zeros (n : nat) : string :=
  match n with
  | O => EmptyString
  | S n' => String "0" (zeros n')
  end.

End JS.

Import JS.

(** Modelled from the spec: [goog.string.padNumber(num, length)] belongs to the
    Closure string utilities, which are not among the sources; the
    specification describes it as the helper that renders a field zero-padded
    to the given width.  The text of the number is left-padded with ['0'] up to
    [length] characters and is never shortened. *)
Definition padNumber (num : number) (length : nat) : string :=
  let s := toString num in
  (zeros (length - String.length s) ++ s)%string.

(** ** The TimeZone object *)

Record TimeZone : Type := mkTimeZone {
  timeZoneId_ : string;
  standardOffset_ : Z;
  tzNames_ : list string;
  transitions_ : list Z
}.

(** The time zone information object handed to [createTimeZone]. *)
Record TimeZoneInfo : Type := mkTimeZoneInfo {
  id : string;
  std_offset : Z;
  names : list string;
  transitions : list Z
}.

(** [number|Object]: the two shapes [createTimeZone] accepts. *)
Inductive TimeZoneData : Type :=
| OffsetData (timeZoneOffsetInMinutes : Z)
| InfoData (info : TimeZoneInfo).

Definition MILLISECONDS_PER_HOUR_ : positive := 3600 * 1000.

(** [goog.i18n.TimeZone.NameType]. *)
Definition STD_SHORT_NAME : nat := 0.
Definition STD_LONG_NAME : nat := 1.
Definition DLT_SHORT_NAME : nat := 2.
Definition DLT_LONG_NAME : nat := 3.

(** ** String composers *)

Definition composeGMTString_ (offset : number) : string :=
  let parts := ["GMT"%string] in
  let parts := parts ++ [if le offset (Int 0) then "+"%string else "-"%string] in
  let offset := abs offset in
  let parts := parts ++ [padNumber (rem (floorDiv offset 60) 100) 2;
                         ":"%string;
                         padNumber (rem offset 60) 2] in
  join parts.

Definition composePosixTimeZoneID_ (offset : number) : string :=
  if eq offset (Int 0) then "Etc/GMT"%string
  else
    let parts := ["Etc/GMT"%string;
                  if lt offset (Int 0) then "-"%string else "+"%string] in
    let offset := abs offset in
    let parts := parts ++ [toString (rem (floorDiv offset 60) 100)] in
    let offset := rem offset 60 in
    let parts := if neq offset (Int 0)
                 then parts ++ [":"%string; padNumber offset 2]
                 else parts in
    join parts.

Definition composeUTCString_ (offset : number) : string :=
  if eq offset (Int 0) then "UTC"%string
  else
    let parts := ["UTC"%string;
                  if lt offset (Int 0) then "+"%string else "-"%string] in
    let offset := abs offset in
    let parts := parts ++ [toString (rem (floorDiv offset 60) 100)] in
    let offset := rem offset 60 in
    let parts := if neq offset (Int 0)
                 then parts ++ [":"%string; toString offset]
                 else parts in
    join parts.

(** ** Factories *)

Definition createSimpleTimeZone_ (timeZoneOffsetInMinutes : Z) : TimeZone :=
  let str := composeUTCString_ (Int timeZoneOffsetInMinutes) in
  {| standardOffset_ := timeZoneOffsetInMinutes;
     timeZoneId_ := composePosixTimeZoneID_ (Int timeZoneOffsetInMinutes);
     tzNames_ := [str; str];
     transitions_ := [] |}.

Definition createTimeZone (timeZoneData : TimeZoneData) : TimeZone :=
  match timeZoneData with
  | OffsetData n => createSimpleTimeZone_ n
  | InfoData d =>
      {| timeZoneId_ := id d;
         standardOffset_ := - std_offset d;
         tzNames_ := names d;
         transitions_ := transitions d |}
  end.

Definition getTimeZoneId (tz : TimeZone) : string := timeZoneId_ tz.

(** ** Instants *)

(** A [Date] is its time value: milliseconds since 1970-01-01T00:00:00Z. *)
Record Date : Type := mkDate { getTime : Z }.

(** [Date.UTC(date.getUTCFullYear(), date.getUTCMonth(), date.getUTCDate(),
    date.getUTCHours(), date.getUTCMinutes())]: the calendar fields down to the
    minute are read back into a time value, seconds and milliseconds being left
    at zero.  This is the time value rounded down to a whole minute.  (The
    built-in [Date.UTC] reads a year from 0 to 99 as 1900 + year; instants of
    the first century are outside this model.) *)
Definition utcMinuteFields (date : Date) : Z := 60000 * (getTime date / 60000).

(** ** Daylight adjustment *)

(** [timeInHours >= this.transitions_[index]]; false on [undefined]. *)
Definition reached (timeInHours : Q) (point : option Z) : bool :=
  match point with
  | Some p => Qle_bool (inject_Z p) timeInHours
  | None => false
  end.

(** The [while] loop of [getDaylightAdjustment].  [reads] records, in order,
    the indices at which [this.transitions_] has been read; the second conjunct
    of the guard is evaluated only when the first holds.  Each iteration
    consumes one unit of [fuel]. *)
Fixpoint scan (fuel : nat) (transitions : list Z) (timeInHours : Q)
    (index : nat) (reads : list nat) : nat * list nat :=
  match fuel with
  | O => (index, reads)
  | S fuel' =>
      if (index <? length transitions)%nat then
        let reads := reads ++ [index] in
        if reached timeInHours (nth_error transitions index)
        then scan fuel' transitions timeInHours (index + 2)%nat reads
        else (index, reads)
      else (index, reads)
  end.

(** The body of [getDaylightAdjustment] after [timeInHours] is known: the value
    returned ([None] is [undefined]) and the indices read. *)
Definition adjustmentAt (transitions : list Z) (timeInHours : Q)
    : option Z * list nat :=
  let '(index, reads) :=
    scan (S (length transitions)) transitions timeInHours 0%nat [] in
  if (index =? 0)%nat then (Some 0, reads)
  else (nth_error transitions (index - 1), reads ++ [(index - 1)%nat]).

(** [timeInMs / MILLISECONDS_PER_HOUR_]: a count of hours with the minutes as
    its fractional part, kept as an exact rational (it is only ever compared
    with the whole-hour points of the table). *)
Definition timeInHoursOf (date : Date) : Q :=
  let timeInMs := utcMinuteFields date in
  timeInMs # MILLISECONDS_PER_HOUR_.

Definition getDaylightAdjustment (tz : TimeZone) (date : Date) : option Z :=
  fst (adjustmentAt (transitions_ tz) (timeInHoursOf date)).

(** The indices of [this.transitions_] read by [getDaylightAdjustment]. *)
Definition getDaylightAdjustment_reads (tz : TimeZone) (date : Date) : list nat :=
  snd (adjustmentAt (transitions_ tz) (timeInHoursOf date)).

(** ** Offset, names and the remaining queries *)

Definition getOffset (tz : TimeZone) (date : Date) : number :=
  sub (Int (standardOffset_ tz)) (toNumber (getDaylightAdjustment tz date)).

Definition isDaylightTime (tz : TimeZone) (date : Date) : bool :=
  gt (toNumber (getDaylightAdjustment tz date)) (Int 0).

Definition getGMTString (tz : TimeZone) (date : Date) : string :=
  composeGMTString_ (getOffset tz date).

Definition getLongName (tz : TimeZone) (date : Date) : option string :=
  nth_error (tzNames_ tz)
    (if isDaylightTime tz date then DLT_LONG_NAME else STD_LONG_NAME).

Definition getShortName (tz : TimeZone) (date : Date) : option string :=
  nth_error (tzNames_ tz)
    (if isDaylightTime tz date then DLT_SHORT_NAME else STD_SHORT_NAME).

Definition getRFCTimeZoneString (tz : TimeZone) (date : Date) : string :=
  let offset := neg (getOffset tz date) in
  let parts := [if lt offset (Int 0) then "-"%string else "+"%string] in
  let offset := abs offset in
  let parts := parts ++ [padNumber (rem (floorDiv offset 60) 100) 2;
                         padNumber (rem offset 60) 2] in
  join parts.

(** ** Reference definitions, following the specification *)

(** The character of a decimal digit, ['0'] being character 48. *)
Definition digit (n : Z) : ascii := ascii_of_nat (48 + Z.to_nat n).

(** A field [n] rendered as exactly two decimal digits, tens first. *)
Definition twoDigits (n : Z) : string :=
  String (digit (n / 10)) (String (digit (n mod 10)) EmptyString).

(** The characters ['0'] to ['9']. *)
Definition isDigit (c : ascii) : bool :=
  let n := nat_of_ascii c in ((48 <=? n) && (n <=? 57))%nat.

(** The transitions table read as (point, adjustment) pairs. *)
Fixpoint pairsOf (table : list Z) : list (Z * Z) :=
  match table with
  | point :: adjustment :: rest => (point, adjustment) :: pairsOf rest
  | _ => []
  end.

(** The last element of a list, if any. *)
Definition lastOf {A : Type} (l : list A) : option A :=
  match l with
  | [] => None
  | x :: l' => Some (List.last l' x)
  end.

(** "Find the last transition whose point is <= the instant's hour value; if
    there is none the adjustment is 0, otherwise it is the adjustment paired
    with that point." *)
Definition lastTransitionAdjustment (pairs : list (Z * Z)) (hours : Q) : Z :=
  match lastOf (filter (fun pa => Qle_bool (inject_Z (fst pa)) hours) pairs) with
  | Some (_, adjustment) => adjustment
  | None => 0
  end.

(** Points sorted ascending (non-decreasing). *)
Definition pointsSorted (table : list Z) : Prop :=
  Sorted Z.le (map fst (pairsOf table)).

(** The instant truncated to whole hours since the epoch. *)
Definition wholeHours (date : Date) : Z := getTime date / 3600000.

(** The daylight adjustment computed from the truncated hour count: minutes,
    seconds and milliseconds are dropped before the table is consulted. *)
Definition getDaylightAdjustment_wholeHours (tz : TimeZone) (date : Date)
    : option Z :=
  fst (adjustmentAt (transitions_ tz) (inject_Z (wholeHours date))).

(** ** Auxiliary definitions for the proofs *)

(** The flat array a list of (point, adjustment) pairs is stored as. *)
Definition flat (pairs : list (Z * Z)) : list Z :=
  flat_map (fun pa => [fst pa; snd pa]) pairs.

(** The longest prefix of pairs whose points the instant has reached. *)
Fixpoint reachedPrefix (hours : Q) (pairs : list (Z * Z)) : list (Z * Z) :=
  match pairs with
  | [] => []
  | pa :: rest =>
      if Qle_bool (inject_Z (fst pa)) hours
      then pa :: reachedPrefix hours rest
      else []
  end.

(** The adjustment of the last pair of the reached prefix, 0 if it is empty. *)
Definition prefixAdjustment (hours : Q) (pairs : list (Z * Z)) : Z :=
  match lastOf (reachedPrefix hours pairs) with
  | Some (_, adjustment) => adjustment
  | None => 0
  end.

(** The spelling of a field below 100 without padding. *)
Definition decimal (n : Z) : string :=
  if n <? 10 then String (digit n) EmptyString else twoDigits n.

(** The descriptor of the Los Angeles scenario, with its two transition points. *)
Definition losAngeles (h0 h1 : Z) : TimeZoneInfo :=
  {| id := "America/Los_Angeles";
     std_offset := 480;
     names := ["PST"; "Pacific Standard Time"; "PDT"; "Pacific Daylight Time"]%string;
     transitions := [h0; 60; h1; 0] |}.

(** ** The interactions prompt (war/dumb-editor/interaction.js) *)

(** The reader, the compiler and [Namespace] are not part of these sources.
    [evaluate aSource namespace pinfo] stands for the body of the [try] block
    of [runCode]: it gives, in order, the written form of the values handed to
    the callback ([None] for a value that is [undefined]), the namespace
    afterwards, and either the pinfo of the compiled program or the text
    [err.toString()] of the error thrown on the way. *)
Class Evaluator : Type := {
  Namespace : Type;
  Pinfo : Type;
  newNamespace : Namespace;
  freshPinfo : Pinfo;
  evaluate : string -> Namespace -> Pinfo
             -> list (option string) * Namespace * (Pinfo + string)
}.

(** A [WeSchemeInteractions] object once [reset] has run: the text notes that
    stand before the prompt, oldest first; the value of the prompt's input
    field; the history array; the namespace and the pinfo. *)
Record Interactions {E : Evaluator} : Type := mkInteractions {
  notes : list string;
  promptValue : string;
  history : list string;
  namespace : Namespace;
  pinfo : Pinfo
}.

(** The line feed of the ["\n"] literals. *)
Definition newline : string := String (ascii_of_nat 10) EmptyString.

(** [Array.prototype.pop]: the last element ([undefined] on an empty array)
    and the array without it. *)
Definition pop (l : list string) : option string * list string :=
  (lastOf l, removelast l).

(** [Array.prototype.shift]: the first element and the rest. *)
Definition shift (l : list string) : option string * list string :=
  match l with
  | [] => (None, [])
  | x :: rest => (Some x, rest)
  end.

(** [addToInteractions]: the new area goes right before the prompt, that is
    after every earlier note. *)
Definition addToInteractions {E : Evaluator} (interactionVal : string)
    (w : Interactions) : Interactions :=
  {| notes := notes w ++ [interactionVal];
     promptValue := promptValue w;
     history := history w;
     namespace := namespace w;
     pinfo := pinfo w |}.

(** [reset]: the div is emptied and gets a new prompt, the two banner notes
    are added, namespace and pinfo are renewed; [this.history] is not
    touched. *)
Definition reset {E : Evaluator} (w : Interactions) : Interactions :=
  let w := {| notes := []; promptValue := EmptyString; history := history w;
              namespace := namespace w; pinfo := pinfo w |} in
  let w := addToInteractions "WeScheme Interactions" w in
  let w := addToInteractions "---" w in
  {| notes := notes w; promptValue := promptValue w; history := history w;
     namespace := newNamespace; pinfo := freshPinfo |}.

(** The callback given to [runToplevel]: a value other than [undefined] is
    noted in its written form. *)
Definition noteValue {E : Evaluator} (w : Interactions) (val : option string)
    : Interactions :=
  match val with
  | Some written => addToInteractions (written ++ newline) w
  | None => w
  end.

(** [runCode]: the values are noted as they come; the pinfo is replaced when
    the program ran to its end, and the error is noted otherwise. *)
Definition runCode {E : Evaluator} (aSource : string) (w : Interactions)
    : Interactions :=
  let '(vals, namespace', result) := evaluate aSource (namespace w) (pinfo w) in
  let w := fold_left noteValue vals w in
  match result with
  | inl pinfo' =>
      {| notes := notes w; promptValue := promptValue w; history := history w;
         namespace := namespace'; pinfo := pinfo' |}
  | inr err =>
      addToInteractions (err ++ newline)
        {| notes := notes w; promptValue := promptValue w; history := history w;
           namespace := namespace'; pinfo := pinfo w |}
  end.

(** [attr("value", v)] on the prompt's input; with [undefined] for [v] jQuery
    reads the attribute and sets nothing. *)
Definition setPromptValue {E : Evaluator} (v : option string) (hist : list string)
    (w : Interactions) : Interactions :=
  {| notes := notes w;
     promptValue := match v with Some s => s | None => promptValue w end;
     history := hist;
     namespace := namespace w;
     pinfo := pinfo w |}.

(** [maybeRunPrompt]: Enter (13) runs the prompt, Up (38) and Down (40) walk
    the history; the result is the handler's return value. *)
Definition maybeRunPrompt {E : Evaluator} (keyCode : Z) (w : Interactions)
    : bool * Interactions :=
  if keyCode =? 13 then
    let nextCode := promptValue w in
    let w := addToInteractions ("> " ++ nextCode ++ newline) w in
    let w := runCode nextCode w in
    (false, setPromptValue (Some EmptyString) (history w ++ [nextCode]) w)
  else if keyCode =? 38 then
    let '(v, hist) := pop (promptValue w :: history w) in
    (false, setPromptValue v hist w)
  else if keyCode =? 40 then
    let '(v, hist) := shift (history w ++ [promptValue w]) in
    (false, setPromptValue v hist w)
  else (true, w).

(** The state after a key. *)
Definition press {E : Evaluator} (keyCode : Z) (w : Interactions) : Interactions :=
  snd (maybeRunPrompt keyCode w).

(** ** The browser check (plt.wescheme.browserCheck) *)

(** [plt.wescheme.cookies] is not part of these sources: the cookies of the
    page and its two functions, [readCookie] giving [None] for [null]. *)
Class Cookies : Type := {
  CookieJar : Type;
  readCookie : string -> CookieJar -> option string;
  createCookie : string -> string -> CookieJar -> CookieJar
}.

(** What [plt.wescheme.BrowserDetect] reports: the browser's name and its
    version, a number. *)
Record BrowserDetect : Type := mkBrowserDetect {
  browser : string;
  version : Q
}.

(** The calls [browserCheck] makes to its two warning functions. *)
Inductive Warning : Type :=
| MightBeOlderThanExpected (expectedBrowser : string) (minimumVersion : Q)
| MightNotWork.

Definition COOKIE_NAME : string := "weschemeBrowserVersionCheck".
Definition COOKIE_VALUE : string := "checked".

Definition expectedBrowserVersions : list (string * Q) :=
  [("Chrome"%string, 5); ("Firefox"%string, 36 # 10)]%Q.

Definition browserAlreadyChecked {C : Cookies} (jar : CookieJar) : bool :=
  match readCookie COOKIE_NAME jar with
  | Some v => String.eqb v COOKIE_VALUE
  | None => false
  end.

Definition markBrowserChecked {C : Cookies} (jar : CookieJar) : CookieJar :=
  createCookie COOKIE_NAME COOKIE_VALUE jar.

(** The [for] loop of [browserCheck] over what is left of the table, and the
    two statements after it. *)
Fixpoint checkAgainst {C : Cookies} (detected : BrowserDetect)
    (expected : list (string * Q)) (jar : CookieJar) : CookieJar * list Warning :=
  match expected with
  | [] => (markBrowserChecked jar, [MightNotWork])
  | (expectedBrowser, minimumVersion) :: rest =>
      if String.eqb (browser detected) expectedBrowser then
        if Qle_bool minimumVersion (version detected) then (jar, [])
        else (markBrowserChecked jar,
              [MightBeOlderThanExpected expectedBrowser minimumVersion])
      else checkAgainst detected rest jar
  end.

(** [browserCheck]: the cookies afterwards and the warnings raised. *)
Definition browserCheck {C : Cookies} (detected : BrowserDetect) (jar : CookieJar)
    : CookieJar * list Warning :=
  if browserAlreadyChecked jar then (jar, [])
  else checkAgainst detected expectedBrowserVersions jar.

(** Cookies kept as a list of bindings, newest first. *)
Definition listCookies : Cookies :=
  {| CookieJar := list (string * string);
     readCookie := fun name jar =>
       match find (fun kv => String.eqb (fst kv) name) jar with
       | Some kv => Some (snd kv)
       | None => None
       end;
     createCookie := fun name value jar => (name, value) :: jar |}.

(** ** Further auxiliary definitions *)

(** A list with its first element moved to the end. *)
Definition rotateLeft (l : list string) : list string :=
  match l with
  | [] => []
  | x :: rest => rest ++ [x]
  end.

(** The object [w] with the ring [ring] of entries for its history and its
    prompt, the prompt being the last entry. *)
Definition ofRing {E : Evaluator} (w : Interactions) (ring : list string)
    : Interactions :=
  setPromptValue (lastOf ring) (removelast ring) w.

(** ** Sample evaluations *)

Example gmt_330 : composeGMTString_ (Int 330) = "GMT-05:30"%string.
Proof. reflexivity. Qed.

Example posix_minus_120 : composePosixTimeZoneID_ (Int (-120)) = "Etc/GMT-2"%string.
Proof. reflexivity. Qed.

Example utc_minus_120 : composeUTCString_ (Int (-120)) = "UTC+2"%string.
Proof. reflexivity. Qed.

Example utc_minus_95 : composeUTCString_ (Int (-95)) = "UTC+1:35"%string.
Proof. reflexivity. Qed.

Example posix_65 : composePosixTimeZoneID_ (Int 65) = "Etc/GMT+1:05"%string.
Proof. reflexivity. Qed.

Example two_digits_7 : twoDigits 7 = "07"%string /\ decimal 7 = "7"%string.
Proof. split; reflexivity. Qed.

Example utc_minus_65 : composeUTCString_ (Int (-65)) = "UTC+1:5"%string.
Proof. reflexivity. Qed.

Example rfc_330 :
  getRFCTimeZoneString (createSimpleTimeZone_ 330) (mkDate 0) = "-0530"%string.
Proof. reflexivity. Qed.

Example adjustment_sample :
  adjustmentAt [10; 60; 20; 0] (25 # 2) = (Some 60, [0; 2; 1]%nat).
Proof. reflexivity. Qed.

Example adjustment_odd_table :
  adjustmentAt [5] (inject_Z 7) = (None, [0; 1]%nat).
Proof. reflexivity. Qed.

Example rfc_odd_table :
  getRFCTimeZoneString (mkTimeZone "X" 0 [] [5]) (mkDate (7 * 3600000))
  = "+NaNNaN"%string.
Proof. reflexivity. Qed.

(** ** Lists of pairs and the flat table *)

Section ListFacts.

Context {A : Type}.

Lemma two_step_ind (P : list A -> Prop) :
  P [] ->
  (forall x, P [x]) ->
  (forall x y l, P l -> P (x :: y :: l)) ->
  forall l, P l.
Proof.
  intros Hnil Hone Hstep l.
  enough (P l /\ forall x, P (x :: l)) as [H _] by exact H.
  induction l as [|a l [IH1 IH2]].
  - split; [exact Hnil | exact Hone].
  - split; [apply IH2 | intro x; apply Hstep; exact IH1].
Qed.

Lemma lastOf_snoc (l : list A) (x : A) : lastOf (l ++ [x]) = Some x.
Proof.
  destruct l as [|a l]; [reflexivity|].
  simpl. f_equal. apply (last_last l x a).
Qed.

Lemma snoc_cases (l : list A) :
  l = [] \/ exists init x, l = init ++ [x].
Proof.
  destruct l as [|a l]; [now left|right].
  destruct (exists_last (l := a :: l)) as (init & x & E); [discriminate|].
  now exists init, x.
Qed.

End ListFacts.

Lemma flat_app (l1 l2 : list (Z * Z)) : flat (l1 ++ l2) = flat l1 ++ flat l2.
Proof. apply flat_map_app. Qed.

Lemma length_flat (pairs : list (Z * Z)) :
  length (flat pairs) = (2 * length pairs)%nat.
Proof.
  induction pairs as [|pa pairs IH]; [reflexivity|].
  change (flat (pa :: pairs)) with (fst pa :: snd pa :: flat pairs).
  simpl length. rewrite IH. lia.
Qed.

Lemma flat_pairsOf (table : list Z) :
  Nat.Even (length table) -> flat (pairsOf table) = table.
Proof.
  induction table as [|x|x y l IH] using two_step_ind; intros Hev.
  - reflexivity.
  - destruct Hev as [k Hk]. simpl in Hk. lia.
  - simpl. f_equal. f_equal. apply IH.
    destruct Hev as [k Hk]. simpl in Hk. exists (k - 1)%nat. lia.
Qed.

Lemma nth_error_flat_point (pre rest : list (Z * Z)) (p a : Z) :
  nth_error (flat (pre ++ (p, a) :: rest)) (2 * length pre) = Some p.
Proof.
  rewrite flat_app, nth_error_app2; rewrite length_flat; [|lia].
  now rewrite Nat.sub_diag.
Qed.

Lemma nth_error_flat_adjustment (pre rest : list (Z * Z)) (p a : Z) :
  nth_error (flat (pre ++ (p, a) :: rest)) (2 * length pre + 1) = Some a.
Proof.
  rewrite flat_app, nth_error_app2; rewrite length_flat; [|lia].
  now replace (2 * length pre + 1 - 2 * length pre)%nat with 1%nat by lia.
Qed.

Lemma reachedPrefix_length (hours : Q) (pairs : list (Z * Z)) :
  (length (reachedPrefix hours pairs) <= length pairs)%nat.
Proof.
  induction pairs as [|pa rest IH]; simpl; [lia|].
  destruct (Qle_bool _ _); simpl; lia.
Qed.

(** The table splits into the reached prefix and a remainder that is empty or
    starts with a point still ahead of the instant. *)
Lemma reachedPrefix_split (hours : Q) (pairs : list (Z * Z)) :
  exists rest,
    pairs = reachedPrefix hours pairs ++ rest /\
    match rest with
    | [] => True
    | pa :: _ => Qle_bool (inject_Z (fst pa)) hours = false
    end.
Proof.
  induction pairs as [|pa rest' (rest & E & H)]; simpl.
  - now exists [].
  - destruct (Qle_bool (inject_Z (fst pa)) hours) eqn:Hpa.
    + exists rest. simpl. now rewrite <- E.
    + now exists (pa :: rest').
Qed.

(** ** The loop *)

Section Scan.

Variable table : list Z.
Variable hours : Q.

(** With enough fuel the loop stops because its guard fails. *)
Lemma scan_exit (fuel index : nat) (reads : list nat) :
  (length table < index + fuel)%nat ->
  let r := fst (scan fuel table hours index reads) in
  (r <? length table)%nat && reached hours (nth_error table r) = false.
Proof.
  revert index reads.
  induction fuel as [|fuel IH]; intros index reads Hfuel; simpl.
  - replace (index <? length table)%nat with false; [reflexivity|].
    symmetry. apply Nat.ltb_ge. lia.
  - destruct (index <? length table)%nat eqn:Hlt; simpl.
    + destruct (reached hours (nth_error table index)) eqn:Hr; simpl.
      * apply IH. lia.
      * now rewrite Hlt, Hr.
    + now rewrite Hlt.
Qed.

(** The guard reads the table only below its length. *)
Lemma scan_reads_in_bounds (fuel index : nat) (reads : list nat) :
  Forall (fun i => (i < length table)%nat) reads ->
  Forall (fun i => (i < length table)%nat)
         (snd (scan fuel table hours index reads)).
Proof.
  revert index reads.
  induction fuel as [|fuel IH]; intros index reads Hreads; simpl; [exact Hreads|].
  destruct (index <? length table)%nat eqn:Hlt; simpl; [|exact Hreads].
  assert (Forall (fun i => (i < length table)%nat) (reads ++ [index])) as H'.
  { apply Forall_app. split; [exact Hreads|].
    constructor; [now apply Nat.ltb_lt | constructor]. }
  destruct (reached hours (nth_error table index)); simpl; [now apply IH | exact H'].
Qed.

End Scan.

(** Fuel beyond what the loop needs does not change its result: the fuel
    given by [adjustmentAt] is enough on every table. *)
Lemma scan_fuel_enough (table : list Z) (hours : Q) :
  forall fuel index reads,
    (length table < index + fuel)%nat ->
    scan (S fuel) table hours index reads = scan fuel table hours index reads.
Proof.
  induction fuel as [|fuel IH]; intros index reads Hfuel.
  - simpl. replace (index <? length table)%nat with false; [reflexivity|].
    symmetry. apply Nat.ltb_ge. lia.
  - cbn [scan]. destruct (index <? length table)%nat; [|reflexivity].
    destruct (reached hours (nth_error table index)); [|reflexivity].
    apply (IH (index + 2)%nat). lia.
Qed.

Lemma scan_any_fuel (table : list Z) (hours : Q) (extra : nat) :
  scan (extra + S (length table)) table hours 0 []
  = scan (S (length table)) table hours 0 [].
Proof.
  induction extra as [|extra IH]; [reflexivity|].
  rewrite <- IH. apply scan_fuel_enough. lia.
Qed.

(** The loop depends on the instant only through the comparisons it makes. *)
Lemma scan_ext (table : list Z) (h1 h2 : Q) :
  (forall p, Qle_bool (inject_Z p) h1 = Qle_bool (inject_Z p) h2) ->
  forall fuel index reads,
    scan fuel table h1 index reads = scan fuel table h2 index reads.
Proof.
  intros Hcmp. induction fuel as [|fuel IH]; intros index reads; simpl; [reflexivity|].
  destruct (index <? length table)%nat; [|reflexivity].
  assert (reached h1 (nth_error table index) = reached h2 (nth_error table index)) as ->.
  { destruct (nth_error table index); simpl; [apply Hcmp | reflexivity]. }
  destruct (reached h2 (nth_error table index)); [apply IH | reflexivity].
Qed.

(** On a table of pairs the loop stops right after the reached prefix. *)
Lemma scan_flat (hours : Q) (rest pre : list (Z * Z)) :
  forall fuel reads,
    (length rest < fuel)%nat ->
    fst (scan fuel (flat (pre ++ rest)) hours (2 * length pre) reads)
    = (2 * (length pre + length (reachedPrefix hours rest)))%nat.
Proof.
  revert pre.
  induction rest as [|[p a] rest IH]; intros pre fuel reads Hfuel.
  - destruct fuel as [|fuel]; [simpl in Hfuel; lia|].
    simpl. rewrite app_nil_r, length_flat, Nat.ltb_irrefl. simpl. lia.
  - destruct fuel as [|fuel]; [simpl in Hfuel; lia|].
    cbn [scan].
    replace (2 * length pre <? length (flat (pre ++ (p, a) :: rest)))%nat with true.
    2:{ symmetry. apply Nat.ltb_lt. rewrite length_flat, length_app. simpl. lia. }
    rewrite nth_error_flat_point. cbn [reached reachedPrefix fst].
    destruct (Qle_bool (inject_Z p) hours); [|simpl; lia].
    replace (pre ++ (p, a) :: rest) with ((pre ++ [(p, a)]) ++ rest)
      by now rewrite <- app_assoc.
    replace (2 * length pre + 2)%nat with (2 * length (pre ++ [(p, a)]))%nat
      by (rewrite length_app; simpl; lia).
    rewrite IH by (simpl in Hfuel; lia).
    rewrite length_app. simpl. lia.
Qed.

(** ** What [getDaylightAdjustment] returns on a table of pairs *)

Lemma scan_flat_start (hours : Q) (pairs : list (Z * Z)) :
  fst (scan (S (length (flat pairs))) (flat pairs) hours 0 [])
  = (2 * length (reachedPrefix hours pairs))%nat.
Proof.
  assert (length pairs < S (length (flat pairs)))%nat as Hfuel
    by (rewrite length_flat; lia).
  exact (scan_flat hours pairs [] (S (length (flat pairs))) [] Hfuel).
Qed.

Lemma adjustmentAt_flat (hours : Q) (pairs : list (Z * Z)) :
  fst (adjustmentAt (flat pairs) hours) = Some (prefixAdjustment hours pairs).
Proof.
  unfold adjustmentAt, prefixAdjustment.
  pose proof (scan_flat_start hours pairs) as Hidx.
  destruct (scan (S (length (flat pairs))) (flat pairs) hours 0 []) as [index reads].
  simpl in Hidx. subst index.
  destruct (reachedPrefix_split hours pairs) as (rest & Esplit & _).
  destruct (snoc_cases (reachedPrefix hours pairs)) as [E | (init & [p a] & E)].
  - rewrite E. reflexivity.
  - rewrite E in *. rewrite lastOf_snoc, length_app. simpl length.
    replace (_ =? 0)%nat with false by (symmetry; apply Nat.eqb_neq; lia).
    simpl fst.
    replace (length init + 1 + (length init + 1 + 0) - 1)%nat
      with (2 * length init + 1)%nat by lia.
    rewrite Esplit, <- app_assoc. apply nth_error_flat_adjustment.
Qed.

Lemma adjustmentAt_reads_in_bounds (hours : Q) (pairs : list (Z * Z)) :
  Forall (fun i => (i < length (flat pairs))%nat)
         (snd (adjustmentAt (flat pairs) hours)).
Proof.
  unfold adjustmentAt.
  pose proof (scan_flat_start hours pairs) as Hidx.
  pose proof (scan_reads_in_bounds (flat pairs) hours
                (S (length (flat pairs))) 0 [] (Forall_nil _)) as Hreads.
  destruct (scan (S (length (flat pairs))) (flat pairs) hours 0 []) as [index reads].
  simpl in Hidx, Hreads.
  destruct (index =? 0)%nat eqn:E0; simpl; [exact Hreads|].
  apply Forall_app. split; [exact Hreads|].
  constructor; [|constructor].
  apply Nat.eqb_neq in E0.
  pose proof (reachedPrefix_length hours pairs). rewrite length_flat. lia.
Qed.

(** The value returned, when it is not 0, sits at an odd position. *)
Lemma prefixAdjustment_in_table (hours : Q) (pairs : list (Z * Z)) :
  prefixAdjustment hours pairs = 0 \/
  exists k, nth_error (flat pairs) (2 * k + 1) = Some (prefixAdjustment hours pairs).
Proof.
  unfold prefixAdjustment.
  destruct (reachedPrefix_split hours pairs) as (rest & Esplit & _).
  destruct (snoc_cases (reachedPrefix hours pairs)) as [E | (init & [p a] & E)].
  - rewrite E. now left.
  - right. rewrite E in *. rewrite lastOf_snoc. exists (length init).
    rewrite Esplit, <- app_assoc. apply nth_error_flat_adjustment.
Qed.

(** ** Sorted tables *)

Lemma Qle_bool_inject_mono (p q : Z) (hours : Q) :
  p <= q ->
  Qle_bool (inject_Z q) hours = true ->
  Qle_bool (inject_Z p) hours = true.
Proof.
  unfold Qle_bool. simpl. intros Hpq Hq.
  apply Z.leb_le in Hq. apply Z.leb_le.
  pose proof (Pos2Z.is_pos (Qden hours)). nia.
Qed.

Lemma filter_none (A : Type) (f : A -> bool) (l : list A) :
  Forall (fun x => f x = false) l -> filter f l = [].
Proof.
  induction 1 as [|x l Hx _ IH]; simpl; [reflexivity|].
  now rewrite Hx.
Qed.

(** On sorted points the pairs the instant has reached are a prefix. *)
Lemma filter_reached_sorted (hours : Q) (pairs : list (Z * Z)) :
  Sorted Z.le (map fst pairs) ->
  filter (fun pa => Qle_bool (inject_Z (fst pa)) hours) pairs
  = reachedPrefix hours pairs.
Proof.
  intros Hs. apply Sorted_StronglySorted in Hs; [|exact Z.le_trans].
  induction pairs as [|[p a] rest IH]; simpl in *; [reflexivity|].
  apply StronglySorted_inv in Hs. destruct Hs as [Hrest Hall].
  destruct (Qle_bool (inject_Z p) hours) eqn:Hp.
  - f_equal. now apply IH.
  - apply filter_none. rewrite Forall_map in Hall.
    eapply Forall_impl; [|exact Hall].
    intros [q b] Hpq. simpl in *.
    destruct (Qle_bool (inject_Z q) hours) eqn:Hq; [|reflexivity].
    rewrite (Qle_bool_inject_mono p q hours Hpq Hq) in Hp. discriminate.
Qed.

(** ** Hours and minutes *)

(** Against a whole-hour point, the minute-precise hour count compares as the
    truncated one. *)
Lemma whole_hour_compare (date : Date) (p : Z) :
  Qle_bool (inject_Z p) (timeInHoursOf date)
  = Qle_bool (inject_Z p) (inject_Z (wholeHours date)).
Proof.
  destruct date as [ms].
  unfold timeInHoursOf, utcMinuteFields, wholeHours, Qle_bool.
  cbn [getTime Qnum Qden inject_Z].
  change (Z.pos MILLISECONDS_PER_HOUR_) with (60000 * 60).
  change 3600000 with (60000 * 60).
  apply eq_true_iff_eq. rewrite !Z.leb_le.
  rewrite <- Z.div_div by lia.
  pose proof (Z.div_mod (ms / 60000) 60 ltac:(lia)).
  pose proof (Z.mod_pos_bound (ms / 60000) 60 ltac:(lia)).
  lia.
Qed.

(** A whole-hour point is reached exactly from its first millisecond on. *)
Lemma reached_from_instant (date : Date) (p : Z) :
  Qle_bool (inject_Z p) (timeInHoursOf date) = (p * 3600000 <=? getTime date).
Proof.
  rewrite whole_hour_compare. destruct date as [ms].
  unfold wholeHours, Qle_bool. cbn [getTime Qnum Qden inject_Z].
  apply eq_true_iff_eq. rewrite !Z.leb_le.
  pose proof (Z.div_mod ms 3600000 ltac:(lia)).
  pose proof (Z.mod_pos_bound ms 3600000 ltac:(lia)).
  lia.
Qed.

Lemma Qle_bool_false_of_lt (x y : Q) : (y < x)%Q -> Qle_bool x y = false.
Proof.
  intros Hlt. destruct (Qle_bool x y) eqn:E; [|reflexivity].
  apply Qle_bool_iff in E. exfalso. exact (Qlt_not_le _ _ Hlt E).
Qed.

Lemma ahead_not_reached (hours : Q) (pairs : list (Z * Z)) :
  Forall (fun pa => (hours < inject_Z (fst pa))%Q) pairs ->
  filter (fun pa => Qle_bool (inject_Z (fst pa)) hours) pairs = [].
Proof.
  intros H. apply filter_none. eapply Forall_impl; [|exact H].
  intros pa Hpa. now apply Qle_bool_false_of_lt.
Qed.

Lemma getDaylightAdjustment_even (tz : TimeZone) (date : Date) :
  Nat.Even (length (transitions_ tz)) ->
  getDaylightAdjustment tz date
  = Some (prefixAdjustment (timeInHoursOf date) (pairsOf (transitions_ tz))).
Proof.
  intros Hev. unfold getDaylightAdjustment.
  rewrite <- (flat_pairsOf _ Hev) at 1. apply adjustmentAt_flat.
Qed.

(** ** The daylight adjustment lookup *)

(** C1. On a table of even length whose points are sorted ascending,
    [getDaylightAdjustment] returns the adjustment paired with the last
    transition point that is <= the instant's hour value, and 0 when no point
    is <= the instant (in particular on the empty table).  The second conjunct
    says the same with the last reached pair singled out in the table. *)
Theorem getDaylightAdjustment_last_transition (tz : TimeZone) (date : Date) :
  Nat.Even (length (transitions_ tz)) ->
  pointsSorted (transitions_ tz) ->
  getDaylightAdjustment tz date
  = Some (lastTransitionAdjustment (pairsOf (transitions_ tz)) (timeInHoursOf date))
  /\ (forall before p a after,
        pairsOf (transitions_ tz) = before ++ (p, a) :: after ->
        (inject_Z p <= timeInHoursOf date)%Q ->
        Forall (fun pa => (timeInHoursOf date < inject_Z (fst pa))%Q) after ->
        getDaylightAdjustment tz date = Some a)
  /\ (Forall (fun pa => (timeInHoursOf date < inject_Z (fst pa))%Q)
             (pairsOf (transitions_ tz)) ->
      getDaylightAdjustment tz date = Some 0).
Proof.
  intros Hev Hsorted.
  assert (getDaylightAdjustment tz date
          = Some (lastTransitionAdjustment (pairsOf (transitions_ tz))
                                           (timeInHoursOf date))) as Hmain.
  { rewrite (getDaylightAdjustment_even _ _ Hev).
    unfold prefixAdjustment, lastTransitionAdjustment.
    now rewrite (filter_reached_sorted _ _ Hsorted). }
  split; [exact Hmain|]. rewrite Hmain. unfold lastTransitionAdjustment.
  split.
  - intros before p a after E Hp Hafter. rewrite E, filter_app.
    cbn [filter fst]. apply Qle_bool_iff in Hp. rewrite Hp.
    rewrite (ahead_not_reached _ _ Hafter), lastOf_snoc. reflexivity.
  - intros Hall. now rewrite (ahead_not_reached _ _ Hall).
Qed.

Lemma getDaylightAdjustment_last_transition_witness :
  getDaylightAdjustment (mkTimeZone "Z" 0 [] [10; 60; 20; 0]) (mkDate (15 * 3600000))
  = Some 60.
Proof.
  refine (proj1 (getDaylightAdjustment_last_transition
                   (mkTimeZone "Z" 0 [] [10; 60; 20; 0]) (mkDate (15 * 3600000)) _ _)).
  - exists 2%nat. reflexivity.
  - unfold pointsSorted. simpl. repeat constructor; lia.
Defined.

(** C9. On a table of even length with non-decreasing points every read of
    [this.transitions_] made by [getDaylightAdjustment] is within bounds, and
    the value returned is 0 or an adjustment stored at an odd position of the
    table. *)
Theorem getDaylightAdjustment_in_bounds (tz : TimeZone) (date : Date) :
  Nat.Even (length (transitions_ tz)) ->
  pointsSorted (transitions_ tz) ->
  Forall (fun i => (i < length (transitions_ tz))%nat)
         (getDaylightAdjustment_reads tz date)
  /\ exists v,
       getDaylightAdjustment tz date = Some v /\
       (v = 0 \/ exists k, nth_error (transitions_ tz) (2 * k + 1) = Some v).
Proof.
  intros Hev _. split.
  - unfold getDaylightAdjustment_reads.
    rewrite <- (flat_pairsOf _ Hev). apply adjustmentAt_reads_in_bounds.
  - eexists. split; [apply (getDaylightAdjustment_even _ _ Hev)|].
    pose proof (prefixAdjustment_in_table (timeInHoursOf date)
                  (pairsOf (transitions_ tz))) as H.
    now rewrite (flat_pairsOf _ Hev) in H.
Qed.

Lemma getDaylightAdjustment_in_bounds_witness :
  Forall (fun i => (i < 4)%nat)
         (getDaylightAdjustment_reads (mkTimeZone "Z" 0 [] [10; 60; 20; 0])
                                      (mkDate (25 * 3600000)))
  /\ exists v,
       getDaylightAdjustment (mkTimeZone "Z" 0 [] [10; 60; 20; 0])
                             (mkDate (25 * 3600000)) = Some v /\
       (v = 0 \/ exists k, nth_error [10; 60; 20; 0] (2 * k + 1) = Some v).
Proof.
  refine (getDaylightAdjustment_in_bounds
            (mkTimeZone "Z" 0 [] [10; 60; 20; 0]) (mkDate (25 * 3600000)) _ _).
  - exists 2%nat. reflexivity.
  - unfold pointsSorted. simpl. repeat constructor; lia.
Defined.


(** ** Offset and daylight-time predicate *)

(** C2. [getOffset] is the standard offset minus the daylight adjustment, and
    [isDaylightTime] holds exactly when the adjustment is greater than 0; on
    an adjustment that is an integer [a] this is [standardOffset_ - a] and
    [0 < a]. *)
Theorem getOffset_isDaylightTime_spec (tz : TimeZone) (date : Date) :
  getOffset tz date
  = sub (Int (standardOffset_ tz)) (toNumber (getDaylightAdjustment tz date))
  /\ isDaylightTime tz date = gt (toNumber (getDaylightAdjustment tz date)) (Int 0)
  /\ (forall a,
        getDaylightAdjustment tz date = Some a ->
        getOffset tz date = Int (standardOffset_ tz - a) /\
        (isDaylightTime tz date = true <-> 0 < a)).
Proof.
  split; [reflexivity|]. split; [reflexivity|].
  intros a Ha. unfold getOffset, isDaylightTime. rewrite Ha. simpl.
  split; [reflexivity|]. unfold gt. simpl. apply Z.ltb_lt.
Qed.

(** ** The Los Angeles scenario *)

Lemma losAngeles_adjustment (h0 h1 : Z) (date : Date) :
  getDaylightAdjustment (createTimeZone (InfoData (losAngeles h0 h1))) date
  = Some (prefixAdjustment (timeInHoursOf date) [(h0, 60); (h1, 0)]).
Proof. apply (adjustmentAt_flat (timeInHoursOf date) [(h0, 60); (h1, 0)]). Qed.



(** ** Two-digit fields *)

Lemma below_100 (P : Z -> bool) :
  forallb (fun k => P (Z.of_nat k)) (seq 0 100) = true ->
  forall n, 0 <= n < 100 -> P n = true.
Proof.
  intros H n Hn. rewrite forallb_forall in H.
  specialize (H (Z.to_nat n)). rewrite Z2Nat.id in H by lia.
  apply H, in_seq. lia.
Qed.

Lemma padNumber_twoDigits (n : Z) :
  0 <= n < 100 -> padNumber (Int n) 2 = twoDigits n.
Proof.
  intros Hn. apply String.eqb_eq.
  apply (below_100 (fun n => String.eqb (padNumber (Int n) 2) (twoDigits n)));
    [vm_compute; reflexivity | exact Hn].
Qed.

Lemma toString_decimal (n : Z) :
  0 <= n < 100 -> toString (Int n) = decimal n.
Proof.
  intros Hn. apply String.eqb_eq.
  apply (below_100 (fun n => String.eqb (toString (Int n)) (decimal n)));
    [vm_compute; reflexivity | exact Hn].
Qed.

Lemma twoDigits_isDigit (n : Z) :
  0 <= n < 100 ->
  isDigit (digit (n / 10)) = true /\ isDigit (digit (n mod 10)) = true.
Proof.
  intros Hn. apply andb_true_iff.
  apply (below_100 (fun n => isDigit (digit (n / 10)) && isDigit (digit (n mod 10))));
    [vm_compute; reflexivity | exact Hn].
Qed.

Lemma hours_field_range (offset : Z) :
  0 <= Z.rem (Z.abs offset / 60) 100 < 100
  /\ Z.rem (Z.abs offset / 60) 100 = (Z.abs offset / 60) mod 100.
Proof.
  assert (0 <= Z.abs offset / 60) by (apply Z.div_pos; lia).
  rewrite Z.rem_mod_nonneg by lia.
  split; [apply Z.mod_pos_bound; lia | reflexivity].
Qed.

Lemma minutes_field_range (offset : Z) :
  0 <= Z.rem (Z.abs offset) 60 < 100
  /\ Z.rem (Z.abs offset) 60 = Z.abs offset mod 60.
Proof.
  rewrite Z.rem_mod_nonneg by lia.
  pose proof (Z.mod_pos_bound (Z.abs offset) 60 ltac:(lia)).
  split; [lia | reflexivity].
Qed.

(** ** String composers *)

(** Brings the ranges of the hour and minute fields of [o] into the context. *)
Ltac field_ranges o :=
  let Hh := fresh "Hh" in let Eh := fresh "Eh" in
  let Hm := fresh "Hm" in let Em := fresh "Em" in
  destruct (hours_field_range o) as [Hh Eh];
  destruct (minutes_field_range o) as [Hm Em];
  rewrite ?(padNumber_twoDigits _ Hh), ?(padNumber_twoDigits _ Hm),
          ?(toString_decimal _ Hh), ?(toString_decimal _ Hm), ?Eh, ?Em.

Lemma append_empty_r (s : string) : (s ++ "")%string = s.
Proof. induction s as [|c s IH]; simpl; [reflexivity | now rewrite IH]. Qed.

(** C5. For every integer offset the GMT composer returns "GMT", the sign
    ('+' when the offset is <= 0, '-' otherwise), floor(|offset|/60) mod 100 in
    two digits, a colon, and |offset| mod 60 in two digits; offset +330 gives
    "GMT-05:30". *)
Theorem composeGMTString_spec (offset : Z) :
  composeGMTString_ (Int offset)
  = ("GMT" ++ (if (offset <=? 0)%Z then "+" else "-")
           ++ twoDigits ((Z.abs offset / 60) mod 100)%Z
           ++ ":"
           ++ twoDigits (Z.abs offset mod 60)%Z)%string
  /\ composeGMTString_ (Int 330) = "GMT-05:30"%string.
Proof.
  split; [|reflexivity].
  unfold composeGMTString_. cbn [abs floorDiv rem le].
  field_ranges offset. reflexivity.
Qed.

(** C6. For every integer offset the UTC composer returns "UTC" alone when the
    offset is 0, and otherwise "UTC", the sign ('+' when the offset is
    negative, '-' otherwise), the hour field unpadded, and ":" with the minute
    field unpadded only when |offset| mod 60 is not 0; offset -120 gives
    "UTC+2", and the zone built from the bare offset 0 is named "UTC". *)
Theorem composeUTCString_spec (offset : Z) :
  composeUTCString_ (Int offset)
  = (if (offset =? 0)%Z then "UTC"
     else "UTC" ++ (if (offset <? 0)%Z then "+" else "-")
                ++ decimal ((Z.abs offset / 60) mod 100)%Z
                ++ (if (Z.abs offset mod 60 =? 0)%Z then ""
                    else ":" ++ decimal (Z.abs offset mod 60)%Z))%string
  /\ composeUTCString_ (Int (-120)) = "UTC+2"%string
  /\ composeUTCString_ (Int 0) = "UTC"%string
  /\ tzNames_ (createTimeZone (OffsetData 0)) = ["UTC"; "UTC"]%string.
Proof.
  split; [|repeat split; reflexivity].
  unfold composeUTCString_, neq. cbn [abs floorDiv rem lt eq].
  destruct (offset =? 0); [reflexivity|].
  field_ranges offset.
  destruct (Z.abs offset mod 60 =? 0); cbn [negb];
    [now rewrite append_empty_r | reflexivity].
Qed.

(** C3 (as the code has it).  The POSIX id composed from a bare offset is
    "Etc/GMT" for offset 0, and otherwise "Etc/GMT", the sign, the hour field
    floor(|offset|/60) mod 100 unpadded, and ":MM" in two digits only when
    |offset| mod 60 is not 0, where the sign is '-' when the offset is negative
    and '+' otherwise; the zone built from the bare offset -120 has id
    "Etc/GMT-2". *)
Theorem composePosixTimeZoneID_spec (offset : Z) :
  getTimeZoneId (createTimeZone (OffsetData offset))
  = (if (offset =? 0)%Z then "Etc/GMT"
     else "Etc/GMT" ++ (if (offset <? 0)%Z then "-" else "+")
                    ++ decimal ((Z.abs offset / 60) mod 100)%Z
                    ++ (if (Z.abs offset mod 60 =? 0)%Z then ""
                        else ":" ++ twoDigits (Z.abs offset mod 60)%Z))%string
  /\ getTimeZoneId (createTimeZone (OffsetData (-120))) = "Etc/GMT-2"%string.
Proof.
  split; [|reflexivity].
  unfold getTimeZoneId, createTimeZone, createSimpleTimeZone_, timeZoneId_.
  unfold composePosixTimeZoneID_, neq. cbn [abs floorDiv rem lt eq].
  destruct (offset =? 0); [reflexivity|].
  field_ranges offset.
  destruct (Z.abs offset mod 60 =? 0); cbn [negb];
    [now rewrite append_empty_r | reflexivity].
Qed.

(** C3 as stated fails: the bare offset -120 gives "Etc/GMT-2", not
    "Etc/GMT+2". *)
Lemma posix_id_minus_120_not_plus :
  getTimeZoneId (createTimeZone (OffsetData (-120))) <> "Etc/GMT+2"%string.
Proof. vm_compute. discriminate. Qed.

(** The RFC string of an integer offset. *)
Lemma getRFCTimeZoneString_int (tz : TimeZone) (date : Date) (offset : Z) :
  getOffset tz date = Int offset ->
  getRFCTimeZoneString tz date
  = ((if (0 <? offset)%Z then "-" else "+")
       ++ twoDigits ((Z.abs offset / 60) mod 100)%Z
       ++ twoDigits (Z.abs offset mod 60)%Z)%string.
Proof.
  intros Hoff.
  unfold getRFCTimeZoneString. rewrite Hoff. cbn [neg abs floorDiv rem lt].
  field_ranges (- offset). rewrite Z.abs_opp.
  replace (- offset <? 0) with (0 <? offset)
    by (destruct (Z.ltb_spec 0 offset), (Z.ltb_spec (- offset) 0); lia).
  reflexivity.
Qed.

(** C4 (as the code has it).  When the resolved offset is +330 minutes
    (west-positive) the RFC string, computed on the negated offset -330, is
    "-0530". *)
Theorem getRFCTimeZoneString_330 (tz : TimeZone) (date : Date) :
  getOffset tz date = Int 330 ->
  getRFCTimeZoneString tz date = "-0530"%string.
Proof.
  intros Hoff. now rewrite (getRFCTimeZoneString_int _ _ _ Hoff).
Qed.

Lemma getRFCTimeZoneString_330_witness :
  getRFCTimeZoneString (createTimeZone (OffsetData 330)) (mkDate 0) = "-0530"%string.
Proof.
  apply (getRFCTimeZoneString_330 (createTimeZone (OffsetData 330)) (mkDate 0)).
  reflexivity.
Defined.

(** C4 as stated fails: a zone whose offset is +330 has an RFC string other
    than "+0530". *)
Lemma rfc_330_not_plus :
  getOffset (createTimeZone (OffsetData 330)) (mkDate 0) = Int 330
  /\ getRFCTimeZoneString (createTimeZone (OffsetData 330)) (mkDate 0)
     <> "+0530"%string.
Proof. split; [reflexivity | vm_compute; discriminate]. Qed.

(** C10. On a well-formed zone (transitions table of even length, so that the
    adjustment is an integer) the RFC string has exactly five characters: a
    sign, '+' or '-', and four decimal digits. *)
Theorem getRFCTimeZoneString_shape (tz : TimeZone) (date : Date) :
  Nat.Even (length (transitions_ tz)) ->
  String.length (getRFCTimeZoneString tz date) = 5%nat
  /\ exists sign h1 h2 m1 m2,
       getRFCTimeZoneString tz date
       = String sign (String h1 (String h2 (String m1 (String m2 EmptyString))))
       /\ (sign = "+"%char \/ sign = "-"%char)
       /\ isDigit h1 = true /\ isDigit h2 = true
       /\ isDigit m1 = true /\ isDigit m2 = true.
Proof.
  intros Hev.
  pose proof (getDaylightAdjustment_even tz date Hev) as Hadj.
  assert (getOffset tz date
          = Int (standardOffset_ tz
                 - prefixAdjustment (timeInHoursOf date) (pairsOf (transitions_ tz))))
    as Hoff by (unfold getOffset; now rewrite Hadj).
  rewrite (getRFCTimeZoneString_int _ _ _ Hoff).
  set (o := standardOffset_ tz - _).
  destruct (hours_field_range o) as [Hh Eh]. rewrite Eh in Hh.
  destruct (minutes_field_range o) as [Hm Em]. rewrite Em in Hm.
  destruct (twoDigits_isDigit _ Hh) as [Dh1 Dh2].
  destruct (twoDigits_isDigit _ Hm) as [Dm1 Dm2].
  split.
  - destruct (0 <? o); reflexivity.
  - exists (if 0 <? o then "-"%char else "+"%char).
    do 4 eexists. split; [destruct (0 <? o); reflexivity|].
    split; [destruct (0 <? o); auto|].
    repeat split; assumption.
Qed.

Lemma getRFCTimeZoneString_shape_witness :
  String.length
    (getRFCTimeZoneString (mkTimeZone "Z" 6000 [] [10; 60; 20; 0])
                          (mkDate (15 * 3600000))) = 5%nat.
Proof.
  refine (proj1 (getRFCTimeZoneString_shape
                   (mkTimeZone "Z" 6000 [] [10; 60; 20; 0])
                   (mkDate (15 * 3600000)) _)).
  exists 2%nat. reflexivity.
Defined.

Example rfc_wraps_hours :
  getRFCTimeZoneString (createTimeZone (OffsetData 6000)) (mkDate 0) = "-0000"%string.
Proof. reflexivity. Qed.

(** ** Further properties of the time-zone queries *)

Lemma simple_zone_offset (offset : Z) (date : Date) :
  getOffset (createTimeZone (OffsetData offset)) date = Int offset.
Proof. unfold getOffset. simpl. now rewrite Z.sub_0_r. Qed.

Lemma reachedPrefix_app (hours : Q) (l1 l2 : list (Z * Z)) :
  Forall (fun pa => (inject_Z (fst pa) <= hours)%Q) l1 ->
  reachedPrefix hours (l1 ++ l2) = l1 ++ reachedPrefix hours l2.
Proof.
  induction 1 as [|pa l1 Hpa _ IH]; simpl; [reflexivity|].
  apply Qle_bool_iff in Hpa. now rewrite Hpa, IH.
Qed.

(** X1. The lookup stops at the first point that lies ahead of the instant, also
    on a table that is not sorted: it returns the adjustment of the pair just
    before that point and never looks at the pairs after it. *)
Theorem lookup_stops_at_first_point_ahead (tz : TimeZone) (date : Date)
    (before after : list (Z * Z)) (p a q b : Z) :
  transitions_ tz = flat (before ++ (p, a) :: (q, b) :: after) ->
  Forall (fun pa => (inject_Z (fst pa) <= timeInHoursOf date)%Q) before ->
  (inject_Z p <= timeInHoursOf date)%Q ->
  (timeInHoursOf date < inject_Z q)%Q ->
  getDaylightAdjustment tz date = Some a.
Proof.
  intros Htable Hbefore Hp Hq. unfold getDaylightAdjustment.
  rewrite Htable, adjustmentAt_flat. unfold prefixAdjustment.
  rewrite (reachedPrefix_app _ _ _ Hbefore). cbn [reachedPrefix fst].
  apply Qle_bool_iff in Hp. rewrite Hp, (Qle_bool_false_of_lt _ _ Hq).
  now rewrite lastOf_snoc.
Qed.

Lemma lookup_stops_at_first_point_ahead_witness :
  getDaylightAdjustment (mkTimeZone "Z" 0 [] [10; 60; 30; 0; 20; 45])
                        (mkDate (25 * 3600000)) = Some 60
  /\ lastTransitionAdjustment (pairsOf [10; 60; 30; 0; 20; 45])
                              (timeInHoursOf (mkDate (25 * 3600000))) = 45.
Proof.
  split; [|reflexivity].
  refine (lookup_stops_at_first_point_ahead
            (mkTimeZone "Z" 0 [] [10; 60; 30; 0; 20; 45]) (mkDate (25 * 3600000))
            [] [(20, 45)] 10 60 30 0 _ _ _ _).
  - reflexivity.
  - constructor.
  - unfold Qle. simpl. lia.
  - unfold Qlt. simpl. lia.
Defined.

Lemma scan_flat_dangling (hours : Q) (p : Z) (rest pre : list (Z * Z)) :
  Qle_bool (inject_Z p) hours = true ->
  Forall (fun pa => Qle_bool (inject_Z (fst pa)) hours = true) rest ->
  forall fuel reads,
    (length rest + 1 < fuel)%nat ->
    fst (scan fuel (flat (pre ++ rest) ++ [p]) hours (2 * length pre) reads)
    = (2 * (length pre + length rest) + 2)%nat.
Proof.
  intros Hp Hrest. revert pre.
  induction Hrest as [|[q b] rest Hq _ IH]; intros pre fuel reads Hfuel.
  - destruct fuel as [|[|fuel]]; [simpl in Hfuel; lia | simpl in Hfuel; lia |].
    rewrite app_nil_r. cbn [scan].
    replace (2 * length pre <? length (flat pre ++ [p]))%nat with true
      by (symmetry; apply Nat.ltb_lt; rewrite length_app, length_flat; simpl; lia).
    rewrite nth_error_app2, length_flat, Nat.sub_diag by (rewrite length_flat; lia).
    cbn [nth_error reached]. rewrite Hp.
    replace (2 * length pre + 2 <? length (flat pre ++ [p]))%nat with false
      by (symmetry; apply Nat.ltb_ge; rewrite length_app, length_flat; simpl; lia).
    simpl. lia.
  - destruct fuel as [|fuel]; [simpl in Hfuel; lia|].
    cbn [scan].
    replace (2 * length pre <? length (flat (pre ++ (q, b) :: rest) ++ [p]))%nat
      with true
      by (symmetry; apply Nat.ltb_lt;
          rewrite !length_app, length_flat, length_app; simpl; lia).
    rewrite nth_error_app1
      by (rewrite length_flat, length_app; simpl; lia).
    rewrite nth_error_flat_point. cbn [reached fst] in *. rewrite Hq.
    replace (pre ++ (q, b) :: rest) with ((pre ++ [(q, b)]) ++ rest)
      by now rewrite <- app_assoc.
    replace (2 * length pre + 2)%nat with (2 * length (pre ++ [(q, b)]))%nat
      by (rewrite length_app; simpl; lia).
    rewrite IH by (simpl in Hfuel; lia).
    rewrite length_app. simpl. lia.
Qed.

(** X2. A table of odd length whose points have all been reached makes the lookup
    read one entry past the end of the table: the adjustment is [undefined],
    the offset is [NaN], the zone does not count as being in daylight time,
    and the strings are spelled with "NaN". *)
Theorem dangling_point_gives_undefined (tz : TimeZone) (date : Date)
    (pairs : list (Z * Z)) (p : Z) :
  transitions_ tz = flat pairs ++ [p] ->
  Forall (fun pa => (inject_Z (fst pa) <= timeInHoursOf date)%Q) pairs ->
  (inject_Z p <= timeInHoursOf date)%Q ->
  getDaylightAdjustment tz date = None
  /\ In (length (transitions_ tz)) (getDaylightAdjustment_reads tz date)
  /\ getOffset tz date = NaN
  /\ isDaylightTime tz date = false
  /\ getRFCTimeZoneString tz date = "+NaNNaN"%string
  /\ getGMTString tz date = "GMT-NaN:NaN"%string.
Proof.
  intros Htable Hpairs Hp.
  assert (fst (adjustmentAt (transitions_ tz) (timeInHoursOf date)) = None
          /\ In (length (transitions_ tz))
                (snd (adjustmentAt (transitions_ tz) (timeInHoursOf date))))
    as [Hadj Hread].
  { rewrite Htable. unfold adjustmentAt.
    assert (Forall (fun pa => Qle_bool (inject_Z (fst pa)) (timeInHoursOf date) = true)
                   pairs) as Hall
      by (eapply Forall_impl; [|exact Hpairs]; intros pa H; now apply Qle_bool_iff).
    apply Qle_bool_iff in Hp.
    pose proof (scan_flat_dangling (timeInHoursOf date) p pairs [] Hp Hall
                  (S (length (flat pairs ++ [p]))) []) as Hidx.
    change (flat ([] ++ pairs)) with (flat pairs) in Hidx.
    change (2 * length (@nil (Z * Z)))%nat with 0%nat in Hidx.
    specialize (Hidx ltac:(rewrite length_app, length_flat; simpl; lia)).
    destruct (scan (S (length (flat pairs ++ [p]))) (flat pairs ++ [p])
                   (timeInHoursOf date) 0 []) as [index reads].
    cbn [fst length Nat.add] in Hidx.
    assert (index - 1 = length (flat pairs ++ [p]))%nat as Hlast
      by (rewrite length_app, length_flat; simpl; lia).
    replace (index =? 0)%nat with false by (symmetry; apply Nat.eqb_neq; lia).
    rewrite Hlast. cbn [fst snd]. split.
    - apply nth_error_None. lia.
    - apply in_or_app. right. now left. }
  assert (getDaylightAdjustment tz date = None) as Hnone by exact Hadj.
  unfold getGMTString, getRFCTimeZoneString, isDaylightTime, getOffset.
  rewrite Hnone. repeat split; try reflexivity. exact Hread.
Qed.

Lemma dangling_point_gives_undefined_witness :
  getDaylightAdjustment (mkTimeZone "Z" 0 [] [10; 60; 20]) (mkDate (30 * 3600000))
  = None.
Proof.
  refine (proj1 (dangling_point_gives_undefined
                   (mkTimeZone "Z" 0 [] [10; 60; 20]) (mkDate (30 * 3600000))
                   [(10, 60)] 20 _ _ _)).
  - reflexivity.
  - constructor; [|constructor]. unfold Qle. simpl. lia.
  - unfold Qle. simpl. lia.
Defined.

(** ** Further properties of the string composers *)

Lemma composeGMTString_int (offset : Z) :
  composeGMTString_ (Int offset)
  = ("GMT" ++ (if (0 <? offset)%Z then "-" else "+")
           ++ twoDigits ((Z.abs offset / 60) mod 100)%Z
           ++ ":"
           ++ twoDigits (Z.abs offset mod 60)%Z)%string.
Proof.
  unfold composeGMTString_. cbn [abs floorDiv rem le].
  field_ranges offset.
  replace (offset <=? 0) with (negb (0 <? offset))
    by (destruct (Z.leb_spec offset 0), (Z.ltb_spec 0 offset); simpl; lia).
  destruct (0 <? offset); reflexivity.
Qed.

(** X3. The GMT string and the RFC string of a zone agree at every instant: the
    same sign and the same two-digit hour and minute fields, the GMT string
    adding its prefix and the colon. *)
Theorem gmt_and_rfc_strings_agree (tz : TimeZone) (date : Date) :
  Nat.Even (length (transitions_ tz)) ->
  exists sign hh mm : string,
    String.length sign = 1%nat /\ String.length hh = 2%nat
    /\ String.length mm = 2%nat
    /\ getRFCTimeZoneString tz date = (sign ++ hh ++ mm)%string
    /\ getGMTString tz date = ("GMT" ++ sign ++ hh ++ ":" ++ mm)%string.
Proof.
  intros Hev.
  pose proof (getDaylightAdjustment_even tz date Hev) as Hadj.
  assert (getOffset tz date
          = Int (standardOffset_ tz
                 - prefixAdjustment (timeInHoursOf date) (pairsOf (transitions_ tz))))
    as Hoff by (unfold getOffset; now rewrite Hadj).
  unfold getGMTString.
  rewrite (getRFCTimeZoneString_int _ _ _ Hoff), Hoff, composeGMTString_int.
  set (o := standardOffset_ tz - _).
  exists (if 0 <? o then "-"%string else "+"%string).
  exists (twoDigits ((Z.abs o / 60) mod 100)), (twoDigits (Z.abs o mod 60)).
  repeat split; try reflexivity. now destruct (0 <? o).
Qed.

Lemma gmt_and_rfc_strings_agree_witness :
  exists sign hh mm : string,
    String.length sign = 1%nat /\ String.length hh = 2%nat
    /\ String.length mm = 2%nat
    /\ getRFCTimeZoneString (createTimeZone (InfoData (losAngeles 10 20)))
                            (mkDate (15 * 3600000)) = (sign ++ hh ++ mm)%string
    /\ getGMTString (createTimeZone (InfoData (losAngeles 10 20)))
                    (mkDate (15 * 3600000)) = ("GMT" ++ sign ++ hh ++ ":" ++ mm)%string.
Proof.
  refine (gmt_and_rfc_strings_agree (createTimeZone (InfoData (losAngeles 10 20)))
                                    (mkDate (15 * 3600000)) _).
  exists 2%nat. reflexivity.
Defined.

Lemma fields_wrap (offset : Z) :
  0 < offset ->
  Z.rem (Z.abs (offset + 6000) / 60) 100 = Z.rem (Z.abs offset / 60) 100
  /\ Z.rem (Z.abs (offset + 6000)) 60 = Z.rem (Z.abs offset) 60.
Proof.
  intros Hpos.
  rewrite !Z.abs_eq by lia.
  assert (0 <= offset / 60) by (apply Z.div_pos; lia).
  replace (offset + 6000) with (offset + 100 * 60) by lia.
  rewrite Z.div_add by lia.
  rewrite !Z.rem_mod_nonneg by lia.
  split.
  - replace (offset / 60 + 100) with (offset / 60 + 1 * 100) by lia.
    apply Z.mod_add. lia.
  - apply Z.mod_add. lia.
Qed.

(** X4. The hour field wraps at a hundred hours: a positive offset and the same
    offset plus 6000 minutes have one GMT string, and the zones made from
    them as bare offsets share their id, their names and their RFC string. *)
Theorem hour_field_wraps (offset : Z) (date : Date) :
  0 < offset ->
  composeGMTString_ (Int (offset + 6000)) = composeGMTString_ (Int offset)
  /\ getTimeZoneId (createTimeZone (OffsetData (offset + 6000)))
     = getTimeZoneId (createTimeZone (OffsetData offset))
  /\ tzNames_ (createTimeZone (OffsetData (offset + 6000)))
     = tzNames_ (createTimeZone (OffsetData offset))
  /\ getRFCTimeZoneString (createTimeZone (OffsetData (offset + 6000))) date
     = getRFCTimeZoneString (createTimeZone (OffsetData offset)) date.
Proof.
  intros Hpos. destruct (fields_wrap offset Hpos) as [Eh Em].
  assert ((offset + 6000 =? 0) = false) as Z1 by (apply Z.eqb_neq; lia).
  assert ((offset =? 0) = false) as Z2 by (apply Z.eqb_neq; lia).
  assert ((offset + 6000 <? 0) = false) as L1 by (apply Z.ltb_ge; lia).
  assert ((offset <? 0) = false) as L2 by (apply Z.ltb_ge; lia).
  assert ((offset + 6000 <=? 0) = false) as M1 by (apply Z.leb_gt; lia).
  assert ((offset <=? 0) = false) as M2 by (apply Z.leb_gt; lia).
  assert (composeUTCString_ (Int (offset + 6000)) = composeUTCString_ (Int offset))
    as Hutc.
  { unfold composeUTCString_, neq. cbn [abs floorDiv rem lt eq].
    now rewrite Z1, Z2, L1, L2, Eh, Em. }
  repeat split.
  - unfold composeGMTString_. cbn [abs floorDiv rem le].
    now rewrite M1, M2, Eh, Em.
  - unfold getTimeZoneId, createTimeZone, createSimpleTimeZone_, timeZoneId_.
    unfold composePosixTimeZoneID_, neq. cbn [abs floorDiv rem lt eq].
    now rewrite Z1, Z2, L1, L2, Eh, Em.
  - unfold createTimeZone, createSimpleTimeZone_, tzNames_. now rewrite Hutc.
  - unfold getRFCTimeZoneString. rewrite !simple_zone_offset. cbn [neg abs floorDiv rem lt].
    rewrite !Z.abs_opp, Eh, Em.
    replace (- (offset + 6000) <? 0) with true by (symmetry; apply Z.ltb_lt; lia).
    replace (- offset <? 0) with true by (symmetry; apply Z.ltb_lt; lia).
    reflexivity.
Qed.

Lemma hour_field_wraps_witness :
  getTimeZoneId (createTimeZone (OffsetData (90 + 6000)))
  = getTimeZoneId (createTimeZone (OffsetData 90)).
Proof.
  refine (proj1 (proj2 (hour_field_wraps 90 (mkDate 0) _))). lia.
Defined.

(** ** The history of the interactions prompt *)

Section PromptHistory.

Context {E : Evaluator}.

Lemma press_up (w : Interactions) :
  press 38 w
  = setPromptValue (Some (last (history w) (promptValue w)))
                   (removelast (promptValue w :: history w)) w.
Proof. reflexivity. Qed.

Lemma shift_snoc (l : list string) (x : string) :
  shift (l ++ [x]) = (hd_error (l ++ [x]), tl (l ++ [x])).
Proof. now destruct l. Qed.

Lemma press_down (w : Interactions) :
  press 40 w
  = setPromptValue (hd_error (history w ++ [promptValue w]))
                   (tl (history w ++ [promptValue w])) w.
Proof.
  unfold press, maybeRunPrompt. cbn [Z.eqb Pos.eqb snd].
  now rewrite shift_snoc.
Qed.

Lemma removelast_snoc (l : list string) (x : string) : removelast (l ++ [x]) = l.
Proof. apply removelast_last. Qed.

Lemma ring_restored (x : string) (l : list string) :
  removelast (x :: l) ++ [last l x] = x :: l.
Proof.
  symmetry. rewrite (app_removelast_last x (l := x :: l)) at 1 by discriminate.
  f_equal. f_equal. now destruct l.
Qed.

Lemma down_after_up (w : Interactions) : press 40 (press 38 w) = w.
Proof.
  destruct w as [ns v h nsp pi].
  rewrite press_down, press_up. unfold setPromptValue.
  cbn [notes promptValue history namespace pinfo].
  now rewrite ring_restored.
Qed.

Lemma up_after_down (w : Interactions) : press 38 (press 40 w) = w.
Proof.
  destruct w as [ns v h nsp pi].
  rewrite press_up, press_down. unfold setPromptValue.
  cbn [notes promptValue history namespace pinfo].
  destruct (h ++ [v]) as [|x t] eqn:El; [now destruct h|].
  cbn [hd_error tl].
  assert (lastOf (x :: t) = Some v) as Hlast by (rewrite <- El; apply lastOf_snoc).
  injection Hlast as Hlast. rewrite Hlast, <- El, removelast_snoc. reflexivity.
Qed.

(** X6. Up and Down undo each other: after Up then Down, or Down then Up, the
    prompt shows what it showed and the history is what it was. *)
Theorem up_and_down_are_inverse (w : Interactions) :
  press 40 (press 38 w) = w /\ press 38 (press 40 w) = w.
Proof. split; [apply down_after_up | apply up_after_down]. Qed.

Lemma rotateLeft_iter (l1 l2 : list string) :
  Nat.iter (length l1) rotateLeft (l1 ++ l2) = l2 ++ l1.
Proof.
  revert l2. induction l1 as [|x l1 IH]; intros l2.
  - simpl. now rewrite app_nil_r.
  - cbn [length]. rewrite Nat.iter_succ_r. cbn [app rotateLeft].
    rewrite <- app_assoc, IH, <- app_assoc. reflexivity.
Qed.

Lemma press_down_ofRing (w : Interactions) (ring : list string) :
  ring <> [] -> press 40 (ofRing w ring) = ofRing w (rotateLeft ring).
Proof.
  intros Hne. destruct ring as [|x t]; [contradiction|].
  rewrite press_down. unfold ofRing, setPromptValue.
  cbn [notes promptValue history namespace pinfo lastOf rotateLeft].
  rewrite ring_restored. cbn [hd_error tl].
  now rewrite lastOf_snoc, removelast_snoc.
Qed.

Lemma rotateLeft_nonempty (n : nat) (ring : list string) :
  ring <> [] -> Nat.iter n rotateLeft ring <> [].
Proof.
  intros Hne. induction n as [|n IH]; [exact Hne|].
  rewrite Nat.iter_succ.
  destruct (Nat.iter n rotateLeft ring) as [|x t]; [contradiction|].
  simpl. now destruct t.
Qed.

Lemma press_down_iter (w : Interactions) (ring : list string) (n : nat) :
  ring <> [] ->
  Nat.iter n (press 40) (ofRing w ring) = ofRing w (Nat.iter n rotateLeft ring).
Proof.
  intros Hne. induction n as [|n IH]; [reflexivity|].
  rewrite !Nat.iter_succ, IH. apply press_down_ofRing.
  now apply rotateLeft_nonempty.
Qed.

Lemma ofRing_self (w : Interactions) :
  ofRing w (history w ++ [promptValue w]) = w.
Proof.
  destruct w. unfold ofRing, setPromptValue.
  cbn [notes promptValue history namespace pinfo].
  now rewrite lastOf_snoc, removelast_snoc.
Qed.

Lemma down_full_cycle (w : Interactions) :
  Nat.iter (S (length (history w))) (press 40) w = w.
Proof.
  rewrite <- (ofRing_self w) at 2.
  rewrite press_down_iter by (now destruct (history w)).
  replace (S (length (history w))) with (length (history w ++ [promptValue w]))
    by (rewrite length_app; simpl; lia).
  pose proof (rotateLeft_iter (history w ++ [promptValue w]) []) as H.
  rewrite app_nil_r in H. rewrite H. apply ofRing_self.
Qed.

Lemma up_undoes_down_iter (n : nat) (w : Interactions) :
  Nat.iter n (press 38) (Nat.iter n (press 40) w) = w.
Proof.
  induction n as [|n IH]; [reflexivity|].
  rewrite Nat.iter_succ_r, Nat.iter_succ.
  now rewrite up_after_down.
Qed.

(** X7. The history is a ring: with n entries in the history, n + 1 presses of Up,
    or of Down, bring back the prompt's text and the history as they were. *)
Theorem history_is_a_ring (w : Interactions) :
  Nat.iter (S (length (history w))) (press 38) w = w
  /\ Nat.iter (S (length (history w))) (press 40) w = w.
Proof.
  split; [|apply down_full_cycle].
  rewrite <- (down_full_cycle w) at 2. apply up_undoes_down_iter.
Qed.

Lemma noteValue_keeps (vals : list (option string)) (w : Interactions) :
  promptValue (fold_left noteValue vals w) = promptValue w
  /\ history (fold_left noteValue vals w) = history w
  /\ exists more, notes (fold_left noteValue vals w) = notes w ++ more.
Proof.
  revert w. induction vals as [|val vals IH]; intros w; cbn [fold_left].
  - repeat split. exists []. now rewrite app_nil_r.
  - destruct (IH (noteValue w val)) as (Hp & Hh & more & Hn).
    rewrite Hp, Hh, Hn. destruct val as [written|]; cbn [noteValue].
    + repeat split. cbn [addToInteractions notes].
      exists ((written ++ newline)%string :: more). now rewrite <- app_assoc.
    + repeat split. now exists more.
Qed.

Lemma runCode_keeps (aSource : string) (w : Interactions) :
  promptValue (runCode aSource w) = promptValue w
  /\ history (runCode aSource w) = history w
  /\ exists more, notes (runCode aSource w) = notes w ++ more.
Proof.
  unfold runCode.
  destruct (evaluate aSource (namespace w) (pinfo w)) as [[vals ns'] result].
  destruct (noteValue_keeps vals w) as (Hp & Hh & more & Hn).
  destruct result as [pinfo' | err];
    cbn [addToInteractions notes promptValue history]; rewrite ?Hp, ?Hh, ?Hn.
  - repeat split. now exists more.
  - repeat split. exists (more ++ [(err ++ newline)%string]). now rewrite app_assoc.
Qed.

(** X8. Enter files the prompt's text as the newest history entry and clears the
    prompt, whether the code runs or fails; its echo is the first note added
    and no earlier note is lost.  Up then shows the text again, also when the
    interactions have been reset in between. *)
Theorem enter_then_up_recalls (w : Interactions) :
  promptValue (press 13 w) = EmptyString
  /\ history (press 13 w) = history w ++ [promptValue w]
  /\ (exists more,
        notes (press 13 w)
        = notes w ++ ("> " ++ promptValue w ++ newline)%string :: more)
  /\ promptValue (press 38 (press 13 w)) = promptValue w
  /\ promptValue (press 38 (reset (press 13 w))) = promptValue w.
Proof.
  set (w1 := addToInteractions ("> " ++ promptValue w ++ newline) w).
  destruct (runCode_keeps (promptValue w) w1) as (Hp & Hh & more & Hn).
  assert (press 13 w
          = setPromptValue (Some EmptyString)
              (history (runCode (promptValue w) w1) ++ [promptValue w])
              (runCode (promptValue w) w1)) as Henter by reflexivity.
  assert (history (press 13 w) = history w ++ [promptValue w]) as Hhist
    by (rewrite Henter; cbn [setPromptValue history]; now rewrite Hh).
  split; [now rewrite Henter|]. split; [exact Hhist|]. split.
  - exists more. rewrite Henter. cbn [setPromptValue notes]. rewrite Hn.
    unfold w1. cbn [addToInteractions notes]. now rewrite <- app_assoc.
  - split.
    + rewrite press_up. cbn [setPromptValue promptValue]. rewrite Hhist.
      now rewrite last_last.
    + rewrite press_up. cbn [setPromptValue promptValue].
      change (history (reset (press 13 w))) with (history (press 13 w)).
      rewrite Hhist. now rewrite last_last.
Qed.

End PromptHistory.

(** ** The browser check *)

Section BrowserCheck.

Context {C : Cookies}.

Lemma browserCheck_marks (detected : BrowserDetect) (jar : CookieJar) :
  snd (browserCheck detected jar) <> [] ->
  fst (browserCheck detected jar) = markBrowserChecked jar.
Proof.
  unfold browserCheck. destruct (browserAlreadyChecked jar);
    [intros H; now contradiction H|].
  cbn [checkAgainst expectedBrowserVersions].
  destruct (String.eqb (browser detected) "Chrome").
  - destruct (Qle_bool 5 (version detected)); cbn [fst snd]; [|reflexivity].
    intros H. now contradiction H.
  - destruct (String.eqb (browser detected) "Firefox"); [|reflexivity].
    destruct (Qle_bool (36 # 10) (version detected)); cbn [fst snd]; [|reflexivity].
    intros H. now contradiction H.
Qed.



End BrowserCheck.


(** ** The adjustment changes at transition points only *)

Lemma scan_ext_on_points (table : list Z) (h1 h2 : Q) :
  (forall k p, nth_error table (2 * k) = Some p ->
               Qle_bool (inject_Z p) h1 = Qle_bool (inject_Z p) h2) ->
  forall fuel k reads,
    scan fuel table h1 (2 * k) reads = scan fuel table h2 (2 * k) reads.
Proof.
  intros Hcmp. induction fuel as [|fuel IH]; intros k reads; [reflexivity|].
  cbn [scan]. destruct (2 * k <? length table)%nat; [|reflexivity].
  assert (reached h1 (nth_error table (2 * k)) = reached h2 (nth_error table (2 * k)))
    as ->.
  { destruct (nth_error table (2 * k)) as [p|] eqn:Ep; [|reflexivity].
    apply (Hcmp k p Ep). }
  destruct (reached h2 (nth_error table (2 * k))); [|reflexivity].
  replace (2 * k + 2)%nat with (2 * (k + 1))%nat by lia. apply IH.
Qed.


